(** * MDDFT solver of the snowwhite package: model and properties

    Shallow embedding of [mddftsolver.py]: the problem descriptor
    [MddftProblem], the solver [MddftSolver] with its canonical name, the
    reference path [runDef], the compiled-kernel path [solve] and the two
    emitters [_writeScript] and [_writeCudaHost]. *)

From Stdlib Require Import ZArith String Ascii List Lia.
From Stdlib Require QArith.
From stdpp Require Import base tactics option list strings pretty gmap.

Local Open Scope Z_scope.
Local Open Scope string_scope.

(** ** Python values *)

(** The values an options dict holds, as far as the solver inspects them. *)
Inductive pyval : Type :=
  | PyNone
  | PyBool (b : bool)
  | PyInt (n : Z)
  | PyStr (s : string).

#[global] Instance pyval_eq_dec : EqDecision pyval.
Proof. solve_decision. Defined.

(** Truth value of an object in an [if]. *)
Definition py_truthy (v : pyval) : bool :=
  match v with
  | PyNone => false
  | PyBool b => b
  | PyInt n => negb (Z.eqb n 0)
  | PyStr s => negb (String.eqb s "")
  end.

(** [v == s] for a string literal [s]: a [str] only equals a [str]. *)
Definition py_eq_str (v : pyval) (s : string) : bool :=
  match v with
  | PyStr t => String.eqb t s
  | _ => false
  end.

(** [d.get(key, dflt)]. *)
Definition dict_get (d : gmap string pyval) (key : string) (dflt : pyval) : pyval :=
  default dflt (d !! key).

(** A dimension sequence is a list or a tuple of ints. *)
Inductive pyseq : Type :=
  | PyList (l : list Z)
  | PyTuple (l : list Z).

Definition items (s : pyseq) : list Z :=
  match s with PyList l | PyTuple l => l end.

(** [str(n)] for an int. *)
Definition str_int (n : Z) : string := pretty n.

(** [sep.join(l)]. *)
Fixpoint str_join (sep : string) (l : list string) : string :=
  match l with
  | [] => ""
  | [x] => x
  | x :: rest => x +:+ sep +:+ str_join sep rest
  end.

(** [str(s)] for a list or tuple of ints: [[8, 8]], [(8, 8)], [(8,)]. *)
Definition str_seq (s : pyseq) : string :=
  match s with
  | PyList l => "[" +:+ str_join ", " (map str_int l) +:+ "]"
  | PyTuple [x] => "(" +:+ str_int x +:+ ",)"
  | PyTuple l => "(" +:+ str_join ", " (map str_int l) +:+ ")"
  end.

(** The double quote and the newline, which a string literal cannot hold. *)
Definition dq : string := String "034"%char "".
Definition nl : string := String "010"%char "".

(** [s.startswith(pre)]. *)
Fixpoint starts_with (pre s : string) : bool :=
  match pre with
  | EmptyString => true
  | String c pre' =>
      match s with
      | EmptyString => false
      | String d s' => Ascii.eqb c d && starts_with pre' s'
      end
  end.

(** [needle in hay]. *)
Fixpoint contains (needle hay : string) : bool :=
  starts_with needle hay ||
  match hay with
  | EmptyString => false
  | String _ rest => contains needle rest
  end.

(** Python's [+] on strings associates to the left. *)
Local Infix "+&" := String.append (at level 50, left associativity).

(** Exceptions raised by the modelled code. *)
Inductive exn : Type :=
  | TypeError (msg : string)
  | ValueError (msg : string)
  | KernelError
  | DanglingRef.

(** ** Problem descriptor *)

Record MddftProblem : Type := mkMddftProblem {
  _ns : pyseq;
  _k : Z
}.

Definition dimensions (p : MddftProblem) : pyseq := _ns p.
Definition direction (p : MddftProblem) : Z := _k p.

(** What a caller may hand to the solver's constructor. *)
Inductive pyobj : Type :=
  | ObjMddftProblem (p : MddftProblem)
  | ObjOtherProblem (tag : string)
  | ObjValue (v : pyval).

(** [isinstance(o, MddftProblem)]. *)
Definition isinstance_MddftProblem (o : pyobj) : option MddftProblem :=
  match o with
  | ObjMddftProblem p => Some p
  | _ => None
  end.

(** ** Solver *)

Record SWSolver : Type := mkSWSolver {
  _problem : MddftProblem;
  _namebase : string;
  _opts : gmap string pyval;
  _colMajor : pyval;
  _genCuda : pyval
}.

(** Constants and base-class behaviour of the [snowwhite] package, which
    [mddftsolver.py] imports with [from snowwhite import *]. Their values are
    not fixed by this file: every property below holds for all of them, under
    the hypotheses it states. *)
Class Snowwhite : Type := {
  SW_FORWARD : Z;
  SW_INVERSE : Z;
  SW_OPT_REALCTYPE : string;
  SW_OPT_COLMAJOR : string;
  (** how the solver base class reads the target backend from the options *)
  SWSolver_genCuda : gmap string pyval → pyval
}.

Section Naming.
Context `{!Snowwhite}.

(** [MddftProblem.__init__(ns, k=SW_FORWARD)]: [k] is [None] when omitted. *)
Definition MddftProblem_init (ns : pyseq) (k : option Z) : MddftProblem :=
  {| _ns := ns; _k := default SW_FORWARD k |}.

(** Modelled from the spec: [SWSolver.__init__], the base-class constructor,
    which is not part of this file. It keeps the problem and the options,
    takes the canonical name as the base name, derives the layout from the
    column-major option and the target backend from the options. *)
Definition SWSolver_init (problem : MddftProblem) (namebase : string)
    (opts : gmap string pyval) : SWSolver :=
  {| _problem := problem;
     _namebase := namebase;
     _opts := opts;
     _colMajor := dict_get opts SW_OPT_COLMAJOR (PyBool false);
     _genCuda := SWSolver_genCuda opts |}.

(** The name computed by [MddftSolver.__init__] before it calls the base class. *)
Definition MddftSolver_namebase (problem : MddftProblem)
    (opts : gmap string pyval) : string :=
  let typ := "z" in
  let typ :=
    if py_eq_str (dict_get opts SW_OPT_REALCTYPE (PyInt 0)) "float" then "c" else typ in
  let ns := str_join "x" (map str_int (items (dimensions problem))) in
  let namebase :=
    if Z.eqb (direction problem) SW_FORWARD
    then typ +& "mddft_fwd_" +& ns
    else typ +& "mddft_inv_" +& ns in
  let namebase :=
    if py_truthy (dict_get opts SW_OPT_COLMAJOR (PyBool false))
    then namebase +& "_F" else namebase in
  namebase.

(** [MddftSolver.__init__(problem, opts)]. *)
Definition MddftSolver_init (problem : pyobj) (opts : gmap string pyval)
    : exn + SWSolver :=
  match isinstance_MddftProblem problem with
  | None => inl (TypeError "problem must be an MddftProblem")
  | Some p => inr (SWSolver_init p (MddftSolver_namebase p opts) opts)
  end.

(** The canonical name as the specification words it:
    [{typeTag}mddft_{fwd|inv}_{dims joined by 'x'}], with [_F] appended for
    the column-major layout. The direction is given as a flag. *)
Definition canonicalName_spec (forward : bool) (dims : list Z)
    (realCtype_is_float columnMajor_set : bool) : string :=
  (if realCtype_is_float then "c" else "z")
  +:+ "mddft_" +:+ (if forward then "fwd" else "inv") +:+ "_"
  +:+ str_join "x" (map str_int dims)
  +:+ (if columnMajor_set then "_F" else "").

(** The real-type option holds the string ["float"]. *)
Definition realCtype_is_float (opts : gmap string pyval) : bool :=
  bool_decide (opts !! SW_OPT_REALCTYPE = Some (PyStr "float")).

(** The column-major option is present with a true value. *)
Definition columnMajor_set (opts : gmap string pyval) : bool :=
  match opts !! SW_OPT_COLMAJOR with
  | Some v => py_truthy v
  | None => false
  end.

End Naming.

(** ** Generator script and host wrapper *)

(** [print(s, file=f)]: a text sink is the sequence of the strings printed to
    it, each of which the file holds followed by a newline. *)
Definition print (s : string) (file : list string) : list string := file ++ [s].

(** The text a sink holds. *)
Definition file_text (file : list string) : string :=
  fold_right (λ s acc, s +:+ nl +:+ acc) "" file.

Section Emitters.
Context `{!Snowwhite}.

Definition _writeScript (self : SWSolver) (script_file : list string) : list string :=
  let filename := _namebase self in
  let nameroot := _namebase self in
  let dims := str_seq (dimensions (_problem self)) in
  let filetype := ".c" in
  let nameroot := if py_truthy (_genCuda self) then nameroot +& "_cu" else nameroot in
  let filetype := if py_truthy (_genCuda self) then ".cu" else filetype in
  let f := script_file in
  let f := print "Load(fftx);" f in
  let f := print "ImportAll(fftx);" f in
  let f :=
    if py_truthy (_genCuda self)
    then print "conf := LocalConfig.fftx.confGPU();" f
    else print "conf := LocalConfig.fftx.defaultConf();" f in
  let f := print ("t := let(ns := " +& dims +& ",") f in
  let f := print (("    name := " +:+ dq) +& nameroot +& (dq +:+ ",")) f in
  (* -1 is inverse for Numpy and forward (1) for Spiral *)
  let f :=
    if py_truthy (_colMajor self)
    then print ("    TFCall(TRC(TColMajor(MDDFT(ns, "
                +& str_int (direction (_problem self) * -1)
                +& "))), rec(fname := name, params := []))") f
    else print ("    TFCall(TRC(MDDFT(ns, "
                +& str_int (direction (_problem self) * -1)
                +& ")), rec(fname := name, params := []))") f in
  let f := print ");" f in
  let f := print "opts := conf.getOpts(t);" f in
  let f :=
    if py_eq_str (dict_get (_opts self) SW_OPT_REALCTYPE PyNone) "float"
    then print ("opts.TRealCtype := " +:+ dq +:+ "float" +:+ dq +:+ ";") f
    else f in
  let f := print "tt := opts.tagIt(t);" f in
  let f := print "" f in
  let f := print "c := opts.fftxGen(tt);" f in
  let f := print (("PrintTo(" +:+ dq) +& filename +& filetype
                  +& (dq +:+ ", opts.prettyPrint(c));")) f in
  let f := print "" f in
  f.

(** [_writeCudaHost]: the name of the file it opens and what it prints to it.
    The two size strings it computes from the dimensions are never printed. *)
Definition _writeCudaHost (self : SWSolver) : string * list string :=
  let typ := "double" in
  let typ :=
    if py_eq_str (dict_get (_opts self) SW_OPT_REALCTYPE (PyInt 0)) "float"
    then "float" else typ in
  let cu_hostFileName := _namebase self +& "_host.cu" in
  let cu_hostFile := [] in
  let genby := "Host-to-Device C/CUDA Wrapper generated by " +& "MddftSolver" in
  let f := cu_hostFile in
  let f := print "/*" f in
  let f := print (" * " +& genby) f in
  let f := print " */" f in
  let f := print "" f in
  let f := print ("#include <helper_cuda.h> " +:+ nl) f in
  let f := print ("extern void init_" +& _namebase self +& "_cu();") f in
  let f := print ("extern void " +& _namebase self +& "_cu" +& "(" +& typ
                  +& "  *Y, " +& typ +& "  *X);") f in
  let f := print ("extern void destroy_" +& _namebase self +& ("_cu();" +:+ nl)) f in
  let f := print ("extern " +:+ dq +:+ "C" +:+ dq +:+ " { " +:+ nl) f in
  let f := print ("void init_" +& _namebase self +& "()" +& "{") f in
  let f := print ("    init_" +& _namebase self +& "_cu();") f in
  let f := print ("} " +:+ nl) f in
  let f := print ("void " +& _namebase self +& "(" +& typ +& "  *Y, " +& typ
                  +& "  *X) {") f in
  let f := print ("    " +& _namebase self +& "_cu(Y, X);") f in
  let f := print "    checkCudaErrors(cudaGetLastError());" f in
  let f := print ("} " +:+ nl) f in
  let f := print ("void destroy_" +& _namebase self +& "() {") f in
  let f := print ("    destroy_" +& _namebase self +& "_cu();") f in
  let f := print ("} " +:+ nl) f in
  let f := print "}" f in
  (cu_hostFileName, f).

End Emitters.

(** *** Reading an emitted script *)

(** The transform-term line for a layout and a direction literal. *)
Definition transform_term (colMajor : bool) (dir_literal : string) : string :=
  if colMajor
  then "    TFCall(TRC(TColMajor(MDDFT(ns, " +:+ dir_literal
       +:+ "))), rec(fname := name, params := []))"
  else "    TFCall(TRC(MDDFT(ns, " +:+ dir_literal
       +:+ ")), rec(fname := name, params := []))".

(** The statements of the generator's language that a script is made of. *)
Inductive stmt_kind : Type :=
  | LoadModule
  | ImportNamespace
  | SelectConfiguration
  | DeclareTerm
  | FetchOptions
  | SetRealType
  | TagOptions
  | GenerateCode
  | SerializeCode.

(** The statement a printed line opens, if any: the lines that continue the
    declaration of the transform term and the blank lines open none. *)
Definition classify (line : string) : option stmt_kind :=
  if starts_with "Load(" line then Some LoadModule
  else if starts_with "ImportAll(" line then Some ImportNamespace
  else if starts_with "conf := " line then Some SelectConfiguration
  else if starts_with "t := let(" line then Some DeclareTerm
  else if starts_with "opts := conf.getOpts(" line then Some FetchOptions
  else if starts_with "opts.TRealCtype := " line then Some SetRealType
  else if starts_with "tt := opts.tagIt(" line then Some TagOptions
  else if starts_with "c := opts.fftxGen(" line then Some GenerateCode
  else if starts_with "PrintTo(" line then Some SerializeCode
  else None.

Definition statements (script : list string) : list stmt_kind :=
  omap classify script.

(** The statement order the specification fixes. *)
Definition statement_order_spec (realType_is_float : bool) : list stmt_kind :=
  [LoadModule; ImportNamespace; SelectConfiguration; DeclareTerm; FetchOptions]
  ++ (if realType_is_float then [SetRealType] else [])
  ++ [TagOptions; GenerateCode; SerializeCode].

(** *** Reading an emitted host wrapper *)

(** The line that checks for a device error. *)
Definition error_check_line : string := "    checkCudaErrors(cudaGetLastError());".

(** Number of printed lines that satisfy a test. *)
Definition count_lines (test : string → bool) (file : list string) : nat :=
  length (List.filter test file).

(** A line that opens the definition of a function, and one that declares a
    function defined elsewhere. *)
Definition opens_definition (line : string) : bool := starts_with "void " line.
Definition declares_extern (line : string) : bool := starts_with "extern void " line.

(** ** Arrays and the array library *)

(** The two array libraries: host ([numpy]) and accelerator ([cupy]). *)
Inductive xp_module : Type := numpy | cupy.

(** Memory order of an array: ['C'] is row-major, ['F'] is column-major. *)
Inductive mem_order : Type := order_C | order_F.

(** Element arithmetic of the array library. Elements are floating-point
    (complex) numbers: their type and their division are left open. *)
Class ArrayLib : Type := {
  elem : Type;
  dtype_t : Type;
  (** the zero of a dtype *)
  zero_of : dtype_t → elem;
  (** one element divided by an integer *)
  true_divide : elem → Z → elem
}.

Record ndarray `{!ArrayLib} : Type := mk_ndarray {
  module_of : xp_module;
  shape : list Z;
  dtype : dtype_t;
  order : mem_order;
  data : list elem
}.

(** The same array with other elements. *)
Definition with_data `{!ArrayLib} (a : ndarray) (elems : list elem) : ndarray :=
  {| module_of := module_of a; shape := shape a; dtype := dtype a;
     order := order a; data := elems |}.

(** Arrays are objects: code holds references to them. *)
Abbreviation loc := nat (only parsing).

(** Calls into the array library, in the order they are made. *)
Inductive xp_call : Type :=
  | XpZeros
  | XpFftn
  | XpIfftn
  | XpDivide (divisor : Z).

Record world `{!ArrayLib} : Type := mk_world {
  heap : gmap loc ndarray;
  calls : list xp_call
}.

(** What lies outside this file: the library's transforms, and the compiled
    artifact [self._func(dst, src)], which acts on the store of arrays and may
    fail. *)
Class Runtime `{!ArrayLib} : Type := {
  fft_fftn : xp_module → ndarray → ndarray;
  fft_ifftn : xp_module → ndarray → ndarray;
  _func : SWSolver → loc → loc → gmap loc ndarray → exn + gmap loc ndarray
}.

(** Number of elements of an array of a given shape. *)
Definition product (ns : list Z) : Z := fold_right Z.mul 1 ns.

Section Monad.
Context `{!ArrayLib}.

(** Computations on the store of arrays that may raise. *)
Definition M (A : Type) : Type := world → exn + (A * world).

#[global] Instance M_ret : MRet M := λ A x w, inr (x, w).

#[global] Instance M_bind : MBind M := λ A B k c w,
  match c w with
  | inl e => inl e
  | inr (x, w') => k x w'
  end.

Definition raise {A} (e : exn) : M A := λ _, inl e.

Definition deref (l : loc) : M ndarray :=
  λ w, match heap w !! l with
       | Some a => inr (a, w)
       | None => inl DanglingRef
       end.

Definition store (l : loc) (a : ndarray) : M unit :=
  λ w, inr (tt, {| heap := <[l := a]> (heap w); calls := calls w |}).

Definition alloc (a : ndarray) : M loc :=
  λ w, let l := fresh (dom (heap w)) in
       inr (l, {| heap := <[l := a]> (heap w); calls := calls w |}).

Definition log (c : xp_call) : M unit :=
  λ w, inr (tt, {| heap := heap w; calls := calls w ++ [c] |}).

End Monad.

Section Paths.
Context `{!Snowwhite, !ArrayLib, !Runtime}.

(** Modelled from the spec: [get_array_module], a helper of the snowwhite
    package that is not part of this file: the array library implied by the
    array's own type. *)
Definition get_array_module (a : ndarray) : xp_module := module_of a.

(** The array [xp.zeros(shape, dtype, order=ord)] returns. *)
Definition zeros_array (xp : xp_module) (nt : list Z) (dt : dtype_t)
    (ord : mem_order) : ndarray :=
  {| module_of := xp; shape := nt; dtype := dt; order := ord;
     data := replicate (Z.to_nat (product nt)) (zero_of dt) |}.

(** [xp.zeros(shape, dtype, order=ord)]: a negative dimension is refused. *)
Definition xp_zeros (xp : xp_module) (nt : list Z) (dt : dtype_t)
    (ord : mem_order) : M loc :=
  if forallb (Z.leb 0) nt then
    log XpZeros ;; alloc (zeros_array xp nt dt ord)
  else raise (ValueError "negative dimensions are not allowed").

(** [xp.size(a)]. *)
Definition xp_size (xp : xp_module) (l : loc) : M Z :=
  a ← deref l ; mret (product (shape a)).

(** [xp.divide(x, n, out=out)] for an integer [n]. *)
Definition xp_divide (xp : xp_module) (x : loc) (n : Z) (out : loc) : M unit :=
  a ← deref x ;
  o ← deref out ;
  log (XpDivide n) ;;
  store out (with_data o (map (λ e, true_divide e n) (data a))).

(** [xp.fft.fftn(src)] and [xp.fft.ifftn(src)]: the result is a new array. *)
Definition xp_fft_fftn (xp : xp_module) (l : loc) : M loc :=
  a ← deref l ; log XpFftn ;; alloc (fft_fftn xp a).

Definition xp_fft_ifftn (xp : xp_module) (l : loc) : M loc :=
  a ← deref l ; log XpIfftn ;; alloc (fft_ifftn xp a).

(** [self._func(dst, src)]. *)
Definition call_func (self : SWSolver) (dst src : loc) : M unit :=
  λ w, match _func self dst src (heap w) with
       | inl e => inl e
       | inr h => inr (tt, {| heap := h; calls := calls w |})
       end.

(** [MddftSolver.runDef(src)]. *)
Definition runDef (self : SWSolver) (src : loc) : M loc :=
  a ← deref src ;
  let xp := get_array_module a in
  FFT ← (if Z.eqb (direction (_problem self)) SW_FORWARD
          then xp_fft_fftn xp src
          else xp_fft_ifftn xp src) ;
  mret FFT.

(** [MddftSolver.solve(src)]. *)
Definition solve (self : SWSolver) (src : loc) : M loc :=
  a ← deref src ;
  let xp := get_array_module a in
  let nt := items (dimensions (_problem self)) in
  let ordc := if py_truthy (_colMajor self) then order_F else order_C in
  dst ← xp_zeros xp nt (dtype a) ordc ;
  call_func self dst src ;;
  (if Z.eqb (direction (_problem self)) SW_INVERSE
   then n ← xp_size xp dst ; xp_divide xp dst n dst
   else mret tt) ;;
  mret dst.

(** The compiled artifact writes only to its destination argument: when it
    returns, the destination has new elements, as many as before, and
    nothing else in the store has changed. *)
Definition func_writes_dst_only : Prop :=
  ∀ self dst src (h h' : gmap loc ndarray) (d : ndarray),
    h !! dst = Some d →
    _func self dst src h = inr h' →
    ∃ elems, length elems = length (data d) ∧
      h' = <[dst := with_data d elems]> h.

End Paths.

(** ** The array library's normalisation *)


Section Normalisation.
Context `{!Snowwhite, !ArrayLib, !Runtime, !FftSums}.



End Normalisation.

(** ** Reading a name *)

(** Every character of a string passes a test. *)
Fixpoint string_forall (test : ascii → bool) (s : string) : bool :=
  match s with
  | EmptyString => true
  | String c s' => test c && string_forall test s'
  end.

(** The character classes of C identifiers and of decimal numerals. *)
Definition is_digit (c : ascii) : bool :=
  (N.leb 48 (N_of_ascii c) && N.leb (N_of_ascii c) 57)%bool.

Definition is_letter (c : ascii) : bool :=
  ((N.leb 65 (N_of_ascii c) && N.leb (N_of_ascii c) 90)
   || (N.leb 97 (N_of_ascii c) && N.leb (N_of_ascii c) 122))%bool.

Definition is_ident_char (c : ascii) : bool :=
  (is_letter c || is_digit c || Ascii.eqb c "_")%bool.

Definition is_numeral_char (c : ascii) : bool :=
  (is_digit c || Ascii.eqb c "-")%bool.

(** A C identifier: a letter or underscore, then letters, digits, underscores. *)
Definition is_c_identifier (s : string) : bool :=
  match s with
  | EmptyString => false
  | String c _ => (is_letter c || Ascii.eqb c "_") && string_forall is_ident_char s
  end.

(** A string that cannot continue a numeral: it is empty or starts with a
    character that is neither a digit nor a minus sign. *)
Definition stops_numeral (t : string) : bool :=
  match t with
  | EmptyString => true
  | String c _ => negb (is_numeral_char c)
  end.

(** ** Sample instances, to run the model on concrete inputs *)

Definition sw_sample : Snowwhite :=
  {| SW_FORWARD := 1;
     SW_INVERSE := -1;
     SW_OPT_REALCTYPE := "realctype";
     SW_OPT_COLMAJOR := "colmajor";
     SWSolver_genCuda := λ opts, dict_get opts "cuda" (PyBool false) |}.

(** Rational elements, with dtypes given by name. *)
Definition lib_sample : ArrayLib :=
  {| elem := QArith_base.Q;
     dtype_t := string;
     zero_of := λ _, QArith_base.Qmake 0 1;
     true_divide := λ q n,
       Qreduction.Qred (QArith_base.Qdiv q (QArith_base.inject_Z n)) |}.

(** A runtime whose transforms return their input and whose artifact copies
    the source elements into a destination of the same size. *)
Definition runtime_sample : @Runtime lib_sample :=
  {| fft_fftn := λ _ a, a;
     fft_ifftn := λ _ a, a;
     _func := λ _ dst src h,
       match h !! dst, h !! src with
       | Some d, Some s =>
           if Nat.eqb (length (data s)) (length (data d))
           then inr (<[dst := with_data d (data s)]> h)
           else inl KernelError
       | _, _ => inl KernelError
       end |}.

(** A 2 by 2 array of doubles held at reference 0. *)
Definition array_sample : @ndarray lib_sample :=
  @mk_ndarray lib_sample numpy [2; 2] "complex128" order_C
    (map QArith_base.inject_Z [4; 8; 12; 16]).

Definition world_sample : @world lib_sample :=
  @mk_world lib_sample {[ 0%nat := array_sample ]} [].




(** * Properties *)

(** ** Strings *)

Lemma append_cons (x : ascii) (a b : string) :
  String x a +:+ b = String x (a +:+ b).
Proof. reflexivity. Qed.

Lemma append_assoc (a b c : string) : (a +:+ b) +:+ c = a +:+ (b +:+ c).
Proof.
  induction a as [|x a IH]; [reflexivity |].
  rewrite !append_cons. now f_equal.
Qed.

Lemma append_nil_r (a : string) : a +:+ "" = a.
Proof.
  induction a as [|x a IH]; [reflexivity |].
  rewrite append_cons. now f_equal.
Qed.

Lemma prefix_append (a b : string) : starts_with a (a +:+ b) = true.
Proof.
  induction a as [|x a IH]; [reflexivity |].
  rewrite append_cons. cbn [starts_with].
  now rewrite Ascii.eqb_refl, IH.
Qed.

Lemma contains_append_r (n a b : string) :
  contains n b = true → contains n (a +:+ b) = true.
Proof.
  intros Hb. induction a as [|x a IH]; [assumption |].
  rewrite append_cons. simpl. rewrite IH. apply orb_true_r.
Qed.

Lemma contains_prefix (n h : string) :
  starts_with n h = true → contains n h = true.
Proof. intros H. destruct h; cbn [contains]; now rewrite H. Qed.

Lemma contains_append_mid (n a b : string) : contains n (a +:+ n +:+ b) = true.
Proof. apply contains_append_r, contains_prefix, prefix_append. Qed.

(** ** Canonical name *)

Section NamingFacts.
Context `{!Snowwhite}.

Lemma py_eq_str_float (opts : gmap string pyval) (dflt : pyval) :
  dflt ≠ PyStr "float" →
  py_eq_str (dict_get opts SW_OPT_REALCTYPE dflt) "float" = realCtype_is_float opts.
Proof.
  intros Hd. unfold realCtype_is_float, dict_get.
  destruct (opts !! SW_OPT_REALCTYPE) as [v|] eqn:E; simpl.
  - destruct v as [|b|n|s]; simpl; try reflexivity.
    destruct (String.eqb_spec s "float") as [->|Hne].
    + symmetry. now apply bool_decide_eq_true.
    + symmetry. apply bool_decide_eq_false. congruence.
  - destruct dflt as [|b|n|s]; simpl; try reflexivity.
    destruct (String.eqb_spec s "float") as [->|Hne]; [contradiction | reflexivity].
Qed.

Lemma py_truthy_colMajor (opts : gmap string pyval) :
  py_truthy (dict_get opts SW_OPT_COLMAJOR (PyBool false)) = columnMajor_set opts.
Proof.
  unfold columnMajor_set, dict_get. now destruct (opts !! SW_OPT_COLMAJOR).
Qed.

Lemma namebase_spec (p : MddftProblem) (opts : gmap string pyval) :
  MddftSolver_namebase p opts =
  canonicalName_spec (Z.eqb (direction p) SW_FORWARD) (items (dimensions p))
    (realCtype_is_float opts) (columnMajor_set opts).
Proof.
  unfold MddftSolver_namebase, canonicalName_spec.
  rewrite py_eq_str_float by discriminate. rewrite py_truthy_colMajor.
  destruct (realCtype_is_float opts), (direction p =? SW_FORWARD)%Z,
    (columnMajor_set opts); simpl; rewrite ?append_assoc, ?append_nil_r; reflexivity.
Qed.

(** The name depends on the options only through the two it reads. *)
Lemma namebase_ext (p p' : MddftProblem) (opts opts' : gmap string pyval) :
  items (dimensions p') = items (dimensions p) →
  direction p' = direction p →
  opts' !! SW_OPT_REALCTYPE = opts !! SW_OPT_REALCTYPE →
  opts' !! SW_OPT_COLMAJOR = opts !! SW_OPT_COLMAJOR →
  MddftSolver_namebase p' opts' = MddftSolver_namebase p opts.
Proof.
  intros Hd Hk Hr Hc. unfold MddftSolver_namebase, dict_get.
  now rewrite Hd, Hk, Hr, Hc.
Qed.

End NamingFacts.

(** C1: the canonical name computed at construction is
    [{typeTag}mddft_fwd_{dims joined by 'x'}] for a FORWARD problem and
    [{typeTag}mddft_inv_{dims joined by 'x'}] for an INVERSE one, where the
    type tag is [c] when the real-type option equals ["float"] and [z]
    otherwise, with [_F] appended exactly when the column-major option is set;
    two constructions from the same dimensions, direction and options give
    the same name. *)
Theorem canonical_name_at_construction `{!Snowwhite}
    (p : MddftProblem) (opts : gmap string pyval) :
  SW_FORWARD ≠ SW_INVERSE →
  ∃ s, MddftSolver_init (ObjMddftProblem p) opts = inr s ∧
    (direction p = SW_FORWARD →
       _namebase s = canonicalName_spec true (items (dimensions p))
                       (realCtype_is_float opts) (columnMajor_set opts)) ∧
    (direction p = SW_INVERSE →
       _namebase s = canonicalName_spec false (items (dimensions p))
                       (realCtype_is_float opts) (columnMajor_set opts)) ∧
    (∀ p' opts' s',
       MddftSolver_init (ObjMddftProblem p') opts' = inr s' →
       items (dimensions p') = items (dimensions p) →
       direction p' = direction p →
       opts' !! SW_OPT_REALCTYPE = opts !! SW_OPT_REALCTYPE →
       opts' !! SW_OPT_COLMAJOR = opts !! SW_OPT_COLMAJOR →
       _namebase s' = _namebase s).
Proof.
  intros Hdir. eexists. split; [reflexivity |]. simpl.
  repeat split.
  - intros Hk. rewrite namebase_spec, Hk, Z.eqb_refl. reflexivity.
  - intros Hk. rewrite namebase_spec, Hk.
    destruct (Z.eqb_spec SW_INVERSE SW_FORWARD) as [E|_]; [now symmetry in E | reflexivity].
  - intros p' opts' s' Hs' Hd Hk Hr Hc. injection Hs' as <-. simpl.
    now apply namebase_ext.
Qed.

Lemma canonical_name_at_construction_witness :
  (1 ≠ -1) ∧
  ∃ s, @MddftSolver_init sw_sample
         (ObjMddftProblem {| _ns := PyList [8; 8]; _k := -1 |})
         {[ "realctype" := PyStr "float"; "colmajor" := PyBool true ]} = inr s ∧
       _namebase s = "cmddft_inv_8x8_F".
Proof.
  split; [lia |].
  destruct (@canonical_name_at_construction sw_sample
              {| _ns := PyList [8; 8]; _k := -1 |}
              {[ "realctype" := PyStr "float"; "colmajor" := PyBool true ]})
    as (s & Hs & _ & Hinv & _); [simpl; lia |].
  exists s. split; [exact Hs |]. rewrite Hinv by reflexivity. vm_compute. reflexivity.
Defined.

(** C8: constructing a solver from an object that is not an [MddftProblem]
    fails at once with a type error; constructing it from an [MddftProblem]
    does not raise and yields a solver. *)
Theorem init_checks_problem_type `{!Snowwhite} (o : pyobj) (opts : gmap string pyval) :
  match o with
  | ObjMddftProblem p =>
      ∃ s, MddftSolver_init o opts = inr s ∧ _problem s = p
  | _ => MddftSolver_init o opts = inl (TypeError "problem must be an MddftProblem")
  end.
Proof.
  destruct o as [p|tag|v]; simpl; [| reflexivity | reflexivity].
  eexists. split; reflexivity.
Qed.

(** C10: a problem constructed from dimensions alone has direction FORWARD,
    and the canonical name a solver derives from it contains [fwd]. *)
Theorem default_direction_is_forward `{!Snowwhite} (ns : pyseq) (opts : gmap string pyval) :
  direction (MddftProblem_init ns None) = SW_FORWARD ∧
  ∃ s, MddftSolver_init (ObjMddftProblem (MddftProblem_init ns None)) opts = inr s ∧
       contains "fwd" (_namebase s) = true.
Proof.
  split; [reflexivity |].
  eexists. split; [reflexivity |]. simpl.
  rewrite namebase_spec. simpl. rewrite Z.eqb_refl.
  unfold canonicalName_spec.
  rewrite <- append_assoc.
  apply (contains_append_mid "fwd").
Qed.

(** ** Generator script *)

Section ScriptFacts.
Context `{!Snowwhite}.

(** The script is appended to what the sink already holds. *)
Lemma writeScript_appends (self : SWSolver) (script_file : list string) :
  _writeScript self script_file = (script_file ++ _writeScript self [])%list.
Proof.
  unfold _writeScript, print.
  destruct (py_truthy (_genCuda self)), (py_truthy (_colMajor self)),
    (py_eq_str (dict_get (_opts self) SW_OPT_REALCTYPE PyNone) "float");
    rewrite <- ?app_assoc; reflexivity.
Qed.

Lemma writeScript_term (self : SWSolver) :
  _writeScript self [] !! 5%nat =
  Some (transform_term (py_truthy (_colMajor self))
          (str_int (-1 * direction (_problem self)))).
Proof.
  unfold _writeScript, print, transform_term.
  rewrite (Z.mul_comm (-1)).
  destruct (py_truthy (_genCuda self)), (py_truthy (_colMajor self)),
    (py_eq_str (dict_get (_opts self) SW_OPT_REALCTYPE PyNone) "float");
    cbn [app lookup list_lookup]; rewrite append_assoc; reflexivity.
Qed.

End ScriptFacts.

(** C4: the direction written into the transform term of the script is -1
    times the problem's direction constant: [-1 * SW_FORWARD] for a FORWARD
    problem and [-1 * SW_INVERSE] for an INVERSE one. *)
Theorem script_direction_is_negated `{!Snowwhite}
    (ns : pyseq) (name : string) (opts : gmap string pyval) (colMajor genCuda : pyval) :
  let solver k := mkSWSolver (mkMddftProblem ns k) name opts colMajor genCuda in
  (∀ k, _writeScript (solver k) [] !! 5%nat =
        Some (transform_term (py_truthy colMajor) (str_int (-1 * k)))) ∧
  _writeScript (solver SW_FORWARD) [] !! 5%nat =
    Some (transform_term (py_truthy colMajor) (str_int (-1 * SW_FORWARD))) ∧
  _writeScript (solver SW_INVERSE) [] !! 5%nat =
    Some (transform_term (py_truthy colMajor) (str_int (-1 * SW_INVERSE))).
Proof.
  intros solver. repeat split; intros; apply writeScript_term.
Qed.

(** C5: for dimensions [[8, 8]], direction FORWARD, column-major unset or
    false, real type unset and the CPU backend, the script's transform term
    has the direction literal [-1], no line holds a [TColMajor] wrapper, no
    line sets the real-type option, and the output file named is
    [zmddft_fwd_8x8.c]. *)
Theorem script_8x8_forward_cpu `{!Snowwhite} (opts : gmap string pyval) :
  SW_FORWARD = 1 →
  opts !! SW_OPT_REALCTYPE = None →
  columnMajor_set opts = false →
  py_truthy (SWSolver_genCuda opts) = false →
  ∃ s,
    MddftSolver_init
      (ObjMddftProblem (MddftProblem_init (PyList [8; 8]) (Some SW_FORWARD))) opts = inr s ∧
    _writeScript s [] !! 5%nat =
      Some "    TFCall(TRC(MDDFT(ns, -1)), rec(fname := name, params := []))" ∧
    forallb (λ line, negb (contains "TColMajor" line)) (_writeScript s []) = true ∧
    forallb (λ line, negb (contains "TRealCtype" line)) (_writeScript s []) = true ∧
    statements (_writeScript s []) = statement_order_spec false ∧
    List.filter (starts_with "PrintTo(") (_writeScript s []) =
      ["PrintTo(" +:+ dq +:+ "zmddft_fwd_8x8.c" +:+ dq +:+ ", opts.prettyPrint(c));"] ∧
    _writeScript s [] =
      [ "Load(fftx);";
        "ImportAll(fftx);";
        "conf := LocalConfig.fftx.defaultConf();";
        "t := let(ns := [8, 8],";
        "    name := " +:+ dq +:+ "zmddft_fwd_8x8" +:+ dq +:+ ",";
        "    TFCall(TRC(MDDFT(ns, -1)), rec(fname := name, params := []))";
        ");";
        "opts := conf.getOpts(t);";
        "tt := opts.tagIt(t);";
        "";
        "c := opts.fftxGen(tt);";
        "PrintTo(" +:+ dq +:+ "zmddft_fwd_8x8.c" +:+ dq +:+ ", opts.prettyPrint(c));";
        "" ].
Proof.
  intros Hfwd Hreal Hcol Hcpu.
  eexists. split; [reflexivity |].
  assert (Hscript : _writeScript
            (SWSolver_init (MddftProblem_init (PyList [8; 8]) (Some SW_FORWARD))
               (MddftSolver_namebase
                  (MddftProblem_init (PyList [8; 8]) (Some SW_FORWARD)) opts) opts) [] =
      [ "Load(fftx);";
        "ImportAll(fftx);";
        "conf := LocalConfig.fftx.defaultConf();";
        "t := let(ns := [8, 8],";
        "    name := " +:+ dq +:+ "zmddft_fwd_8x8" +:+ dq +:+ ",";
        "    TFCall(TRC(MDDFT(ns, -1)), rec(fname := name, params := []))";
        ");";
        "opts := conf.getOpts(t);";
        "tt := opts.tagIt(t);";
        "";
        "c := opts.fftxGen(tt);";
        "PrintTo(" +:+ dq +:+ "zmddft_fwd_8x8.c" +:+ dq +:+ ", opts.prettyPrint(c));";
        "" ]).
  { unfold _writeScript, SWSolver_init, MddftSolver_namebase, MddftProblem_init.
    cbn [_namebase _problem _opts _colMajor _genCuda dimensions direction _ns _k default].
    rewrite py_truthy_colMajor, Hcol, Hcpu, Z.eqb_refl.
    rewrite !py_eq_str_float by discriminate.
    unfold realCtype_is_float. rewrite Hreal, Hfwd.
    vm_compute. reflexivity. }
  rewrite Hscript. repeat split; vm_compute; reflexivity.
Qed.

Lemma script_8x8_forward_cpu_witness :
  (1 = 1) ∧
  ((∅ : gmap string pyval) !! "realctype" = None) ∧
  @columnMajor_set sw_sample ∅ = false ∧
  py_truthy (dict_get (∅ : gmap string pyval) "cuda" (PyBool false)) = false ∧
  ∃ s, @MddftSolver_init sw_sample
         (ObjMddftProblem {| _ns := PyList [8; 8]; _k := 1 |}) ∅ = inr s ∧
       @_writeScript sw_sample s [] !! 5%nat =
         Some "    TFCall(TRC(MDDFT(ns, -1)), rec(fname := name, params := []))".
Proof.
  pose proof (@script_8x8_forward_cpu sw_sample ∅
                eq_refl eq_refl eq_refl eq_refl) as (s & Hs & Hterm & _).
  repeat split; try reflexivity.
  exists s. split; [exact Hs | exact Hterm].
Defined.

(** C6: the statements of the script come in a fixed order: load the
    generator module, import the namespace, select the configuration, declare
    the transform term with its name and parameters, fetch the options, set
    the real-type option (exactly when the real type equals ["float"]), tag
    the options, generate the code, serialize it to the named output file. *)
Theorem script_statement_order `{!Snowwhite} (self : SWSolver) (script_file : list string) :
  _writeScript self script_file = (script_file ++ _writeScript self [])%list ∧
  statements (_writeScript self []) =
    statement_order_spec (realCtype_is_float (_opts self)) ∧
  (∃ term_name term_params,
     _writeScript self [] !! 4%nat = Some ("    name := " +:+ term_name) ∧
     _writeScript self [] !! 5%nat = Some ("    TFCall(" +:+ term_params)) ∧
  (∃ target,
     last (_writeScript self []) = Some "" ∧
     List.filter (starts_with "PrintTo(") (_writeScript self []) =
       ["PrintTo(" +:+ dq +:+ _namebase self +:+ target]).
Proof.
  split; [apply writeScript_appends |].
  rewrite <- (py_eq_str_float (_opts self) PyNone) by discriminate.
  unfold _writeScript, print.
  destruct (py_truthy (_genCuda self)), (py_truthy (_colMajor self)),
    (py_eq_str (dict_get (_opts self) SW_OPT_REALCTYPE PyNone) "float");
    (split; [reflexivity |]);
    (split; [do 2 eexists; split; cbn [app lookup list_lookup];
             rewrite !append_assoc; reflexivity |]);
    eexists; (split; [reflexivity |]);
    cbn [app]; rewrite !append_assoc; reflexivity.
Qed.

(** ** Host wrapper *)

Section HostFacts.
Context `{!Snowwhite}.

(** The line that calls the wrapped transform is never the error check,
    whatever the name: it holds an underscore. *)
Lemma call_line_is_not_check (name : string) :
  String.eqb error_check_line ("    " +:+ name +:+ "_cu(Y, X);") = false.
Proof.
  apply String.eqb_neq. intros E.
  assert (Hc : contains "_" error_check_line = true).
  { rewrite E. apply contains_append_r.
    apply (contains_append_mid "_" name "cu(Y, X);"). }
  vm_compute in Hc. discriminate Hc.
Qed.

End HostFacts.

(** C7: the host wrapper defines exactly three entry points with C linkage,
    [init_<name>], [<name>] and [destroy_<name>], holds exactly one
    device-error check, placed right after the call of the wrapped transform,
    and uses [double] as the element type of the signatures unless the
    real-type option equals ["float"], when it uses [float]. *)
Theorem cuda_host_entry_points `{!Snowwhite} (self : SWSolver) :
  let name := _namebase self in
  let typ := if realCtype_is_float (_opts self) then "float" else "double" in
  let file := snd (_writeCudaHost self) in
  fst (_writeCudaHost self) = name +:+ "_host.cu" ∧
  List.filter opens_definition file =
    [ "void init_" +:+ name +:+ "(){";
      "void " +:+ name +:+ "(" +:+ typ +:+ "  *Y, " +:+ typ +:+ "  *X) {";
      "void destroy_" +:+ name +:+ "() {" ] ∧
  List.filter declares_extern file =
    [ "extern void init_" +:+ name +:+ "_cu();";
      "extern void " +:+ name +:+ "_cu(" +:+ typ +:+ "  *Y, " +:+ typ +:+ "  *X);";
      "extern void destroy_" +:+ name +:+ "_cu();" +:+ nl ] ∧
  file !! 8%nat = Some ("extern " +:+ dq +:+ "C" +:+ dq +:+ " { " +:+ nl) ∧
  file !! 9%nat = Some ("void init_" +:+ name +:+ "(){") ∧
  file !! 12%nat =
    Some ("void " +:+ name +:+ "(" +:+ typ +:+ "  *Y, " +:+ typ +:+ "  *X) {") ∧
  file !! 13%nat = Some ("    " +:+ name +:+ "_cu(Y, X);") ∧
  file !! 14%nat = Some error_check_line ∧
  file !! 16%nat = Some ("void destroy_" +:+ name +:+ "() {") ∧
  file !! 19%nat = Some "}" ∧
  length file = 20%nat ∧
  count_lines (String.eqb error_check_line) file = 1%nat.
Proof.
  intros name typ file. subst name typ file.
  rewrite <- (py_eq_str_float (_opts self) (PyInt 0)) by discriminate.
  unfold _writeCudaHost, print.
  generalize (_namebase self). intros name.
  destruct (py_eq_str (dict_get (_opts self) SW_OPT_REALCTYPE (PyInt 0)) "float");
    cbn [fst snd app]; rewrite ?append_assoc;
    (do 11 (split; [vm_compute; reflexivity |]));
    pose proof (call_line_is_not_check name) as Hc;
    set (c := "    " +:+ name +:+ "_cu(Y, X);") in *; clearbody c;
    vm_compute; vm_compute in Hc; rewrite Hc; reflexivity.
Qed.

(** ** Reference path and compiled-kernel path *)

Section PathFacts.
Context `{!Snowwhite, !ArrayLib, !Runtime}.

Lemma fresh_loc_unused (w : world) : heap w !! fresh (dom (heap w)) = None.
Proof. apply not_elem_of_dom, is_fresh. Qed.

Lemma bind_inr {A B} (c : M A) (k : A → M B) (w w' : world) (x : A) :
  c w = inr (x, w') → (c ≫= k) w = k x w'.
Proof. intros Hc. unfold mbind, M_bind. now rewrite Hc. Qed.

Lemma deref_ok (l : loc) (w : world) (a : ndarray) :
  heap w !! l = Some a → deref l w = inr (a, w).
Proof. intros Hl. unfold deref. now rewrite Hl. Qed.

Lemma shape_with_data (a : ndarray) (elems : list elem) :
  shape (with_data a elems) = shape a ∧ dtype (with_data a elems) = dtype a ∧
  order (with_data a elems) = order a ∧ data (with_data a elems) = elems.
Proof. repeat split. Qed.

(** What [solve] computes, step by step, when the artifact returns. *)
Lemma solve_run (self : SWSolver) (src : loc) (w : world) (a : ndarray)
    (h2 : gmap loc ndarray) :
  func_writes_dst_only →
  heap w !! src = Some a →
  forallb (Z.leb 0) (items (dimensions (_problem self))) = true →
  let nt := items (dimensions (_problem self)) in
  let dst := fresh (dom (heap w)) in
  let d0 := zeros_array (get_array_module a) nt (dtype a)
              (if py_truthy (_colMajor self) then order_F else order_C) in
  _func self dst src (<[dst := d0]> (heap w)) = inr h2 →
  ∃ elems, length elems = length (data d0) ∧
    h2 = <[dst := with_data d0 elems]> (heap w) ∧
    solve self src w = inr (dst,
      if Z.eqb (direction (_problem self)) SW_INVERSE
      then {| heap := <[dst := with_data d0
                         (map (λ e, true_divide e (product nt)) elems)]> (heap w);
              calls := calls w ++ [XpZeros; XpDivide (product nt)] |}
      else {| heap := h2; calls := calls w ++ [XpZeros] |}).
Proof.
  intros Hfunc Hsrc Hnn nt dst d0 Hk. subst nt.
  destruct (Hfunc self dst src (<[dst := d0]> (heap w)) h2 d0) as (elems & Hlen & Hh2);
    [apply lookup_insert_eq | exact Hk |].
  rewrite insert_insert_eq in Hh2.
  exists elems. split; [exact Hlen |]. split; [exact Hh2 |].
  unfold solve. rewrite (bind_inr _ _ w w a) by now apply deref_ok.
  unfold xp_zeros. rewrite Hnn.
  unfold mbind at 1, M_bind at 1.
  unfold mbind at 1, M_bind at 1. unfold log at 1, alloc at 1.
  cbn [heap calls]. fold dst. fold d0.
  unfold mbind at 1, M_bind at 1. unfold call_func at 1. cbn [heap calls].
  rewrite Hk.
  destruct (Z.eqb (direction (_problem self)) SW_INVERSE).
  - cbv [mbind M_bind mret M_ret xp_size xp_divide deref log store].
    cbn [heap calls]. rewrite Hh2, lookup_insert_eq. cbn [heap calls].
    rewrite lookup_insert_eq. cbn [heap calls].
    rewrite lookup_insert_eq. cbn [heap calls].
    rewrite insert_insert_eq, <- app_assoc. reflexivity.
  - reflexivity.
Qed.

End PathFacts.

(** The sample artifact writes only to its destination. *)
Lemma runtime_sample_writes_dst_only :
  @func_writes_dst_only lib_sample runtime_sample.
Proof.
  intros self dst src h h' d Hd Hf. cbn [_func runtime_sample] in Hf.
  rewrite Hd in Hf. destruct (h !! src) as [s|]; [| discriminate Hf].
  destruct (Nat.eqb (length (data s)) (length (data d))) eqn:E; [| discriminate Hf].
  injection Hf as <-. exists (data s). split; [now apply Nat.eqb_eq | reflexivity].
Qed.

(** C2: when the direction is INVERSE, [solve] divides every element the
    artifact left in the destination by the product of the problem's
    dimensions before it returns the destination; when the direction is
    FORWARD it returns the destination as the artifact left it, with no
    division. *)
Theorem solve_divides_exactly_for_inverse `{!Snowwhite, !ArrayLib, !Runtime}
    (self : SWSolver) (src : loc) (w : world) (a : ndarray) (h2 : gmap loc ndarray) :
  func_writes_dst_only →
  SW_FORWARD ≠ SW_INVERSE →
  heap w !! src = Some a →
  forallb (Z.leb 0) (items (dimensions (_problem self))) = true →
  let N := product (items (dimensions (_problem self))) in
  let dst := fresh (dom (heap w)) in
  _func self dst src
    (<[dst := zeros_array (get_array_module a) (items (dimensions (_problem self)))
                (dtype a) (if py_truthy (_colMajor self) then order_F else order_C)]>
       (heap w)) = inr h2 →
  ∃ k w', solve self src w = inr (dst, w') ∧ h2 !! dst = Some k ∧
    (direction (_problem self) = SW_INVERSE →
       heap w' !! dst = Some (with_data k (map (λ e, true_divide e N) (data k))) ∧
       calls w' = (calls w ++ [XpZeros; XpDivide N])%list) ∧
    (direction (_problem self) = SW_FORWARD →
       heap w' = h2 ∧ calls w' = (calls w ++ [XpZeros])%list).
Proof.
  intros Hfunc Hdir Hsrc Hnn N dst Hk.
  destruct (solve_run self src w a h2 Hfunc Hsrc Hnn Hk) as (elems & Hlen & Hh2 & Hrun).
  eexists. eexists. split; [exact Hrun |].
  split; [rewrite Hh2; apply lookup_insert_eq |].
  split; intros Hd; rewrite Hd.
  - rewrite Z.eqb_refl. cbn [heap calls]. rewrite lookup_insert_eq. split; reflexivity.
  - destruct (Z.eqb_spec SW_FORWARD SW_INVERSE) as [E|_]; [contradiction |].
    split; reflexivity.
Qed.

Lemma solve_divides_exactly_for_inverse_witness :
  ∃ l w',
    @solve sw_sample lib_sample runtime_sample
      (@SWSolver_init sw_sample {| _ns := PyList [2; 2]; _k := -1 |} "zmddft_inv_2x2" ∅)
      0%nat world_sample = inr (l, w') ∧
    calls w' = [XpZeros; XpDivide 4].
Proof.
  edestruct (@solve_divides_exactly_for_inverse sw_sample lib_sample runtime_sample
               (@SWSolver_init sw_sample {| _ns := PyList [2; 2]; _k := -1 |}
                  "zmddft_inv_2x2" ∅)
               0%nat world_sample array_sample)
    as (k & w' & Hs & _ & Hinv & _).
  - exact runtime_sample_writes_dst_only.
  - simpl. lia.
  - reflexivity.
  - reflexivity.
  - reflexivity.
  - eexists. exists w'. split; [exact Hs |].
    destruct (Hinv eq_refl) as [_ Hc]. exact Hc.
Defined.

(** C9: [solve] leaves the source array unchanged and returns a destination
    it has allocated itself, distinct from the source, whose shape is the
    problem's dimensions, whose dtype is the source's, and whose memory order
    is column-major exactly when the column-major option is set, provided the
    artifact writes only to its destination. *)
Theorem solve_allocates_its_destination `{!Snowwhite, !ArrayLib, !Runtime}
    (p : MddftProblem) (opts : gmap string pyval) (src : loc) (w : world)
    (a : ndarray) (h2 : gmap loc ndarray) :
  func_writes_dst_only →
  heap w !! src = Some a →
  forallb (Z.leb 0) (items (dimensions p)) = true →
  let self := SWSolver_init p (MddftSolver_namebase p opts) opts in
  let dst := fresh (dom (heap w)) in
  _func self dst src
    (<[dst := zeros_array (get_array_module a) (items (dimensions p)) (dtype a)
                (if py_truthy (_colMajor self) then order_F else order_C)]>
       (heap w)) = inr h2 →
  MddftSolver_init (ObjMddftProblem p) opts = inr self ∧
  ∃ w' r, solve self src w = inr (dst, w') ∧
    heap w !! dst = None ∧
    dst ≠ src ∧
    heap w' !! src = Some a ∧
    (∀ l, l ≠ dst → heap w' !! l = heap w !! l) ∧
    heap w' !! dst = Some r ∧
    shape r = items (dimensions p) ∧
    dtype r = dtype a ∧
    order r = (if columnMajor_set opts then order_F else order_C).
Proof.
  intros Hfunc Hsrc Hnn self dst Hk. split; [reflexivity |].
  destruct (solve_run self src w a h2 Hfunc Hsrc Hnn Hk) as (elems & Hlen & Hh2 & Hrun).
  assert (Hfresh : heap w !! dst = None) by apply fresh_loc_unused.
  assert (Hne : dst ≠ src) by (intros E; rewrite E, Hsrc in Hfresh; discriminate).
  pose proof (py_truthy_colMajor opts) as Hcol.
  change (dict_get opts SW_OPT_COLMAJOR (PyBool false)) with (_colMajor self) in Hcol.
  destruct (Z.eqb (direction (_problem self)) SW_INVERSE);
    eexists; eexists; (split; [exact Hrun |]); cbn [heap calls]; rewrite ?Hh2;
    (split; [exact Hfresh |]); (split; [exact Hne |]);
    (split; [rewrite lookup_insert_ne by exact Hne; exact Hsrc |]);
    (split; [intros l Hl; now rewrite lookup_insert_ne by (intros E; now apply Hl) |]);
    (split; [apply lookup_insert_eq |]);
    cbn [shape dtype order with_data zeros_array]; rewrite Hcol; repeat split.
Qed.

Lemma solve_allocates_its_destination_witness :
  ∃ l w' r,
    @solve sw_sample lib_sample runtime_sample
      (@SWSolver_init sw_sample {| _ns := PyList [2; 2]; _k := 1 |}
         (@MddftSolver_namebase sw_sample {| _ns := PyList [2; 2]; _k := 1 |}
            {[ "colmajor" := PyBool true ]})
         {[ "colmajor" := PyBool true ]})
      0%nat world_sample = inr (l, w') ∧
    l ≠ 0%nat ∧
    heap w' !! 0%nat = Some array_sample ∧
    heap w' !! l = Some r ∧ shape r = [2; 2] ∧ order r = order_F.
Proof.
  edestruct (@solve_allocates_its_destination sw_sample lib_sample runtime_sample
               {| _ns := PyList [2; 2]; _k := 1 |} {[ "colmajor" := PyBool true ]}
               0%nat world_sample array_sample)
    as (_ & w' & r & Hs & _ & Hne & Hsrc & _ & Hdst & Hshape & _ & Hord).
  - exact runtime_sample_writes_dst_only.
  - reflexivity.
  - reflexivity.
  - reflexivity.
  - eexists. exists w', r. repeat split; eauto.
Defined.






(** * Further properties *)

(** ** Decimal numerals *)

Lemma string_forall_app (test : ascii → bool) (a b : string) :
  string_forall test (a +:+ b) = string_forall test a && string_forall test b.
Proof.
  induction a as [|x a IH]; [reflexivity |].
  rewrite append_cons. cbn [string_forall]. rewrite IH. apply andb_assoc.
Qed.

Lemma string_forall_impl (P Q : ascii → bool) (s : string) :
  (∀ c, P c = true → Q c = true) →
  string_forall P s = true → string_forall Q s = true.
Proof.
  intros HPQ. induction s as [|x s IH]; [reflexivity |].
  cbn [string_forall]. intros [Hx Hs]%andb_true_iff.
  now rewrite (HPQ x Hx), (IH Hs).
Qed.

Lemma pretty_N_char_digit (d : N) : is_digit (pretty_N_char d) = true.
Proof. unfold pretty_N_char. repeat case_match; reflexivity. Qed.

Lemma pretty_N_go_digits (x : N) (s : string) :
  string_forall is_digit s = true →
  string_forall is_digit (pretty_N_go x s) = true.
Proof.
  revert s. induction (N.lt_wf_0 x) as [x _ IH]. intros s Hs.
  destruct (N.eq_dec x 0%N) as [-> | Hx]; [now rewrite pretty_N_go_0 |].
  rewrite pretty_N_go_step by lia. apply IH.
  - apply N.div_lt; lia.
  - cbn [string_forall]. now rewrite pretty_N_char_digit, Hs.
Qed.

Lemma pretty_N_go_length (x : N) (s : string) :
  (String.length s ≤ String.length (pretty_N_go x s))%nat.
Proof.
  revert s. induction (N.lt_wf_0 x) as [x _ IH]. intros s.
  destruct (N.eq_dec x 0%N) as [-> | Hx]; [now rewrite pretty_N_go_0 |].
  rewrite pretty_N_go_step by lia.
  etransitivity; [| apply IH, N.div_lt; lia]. cbn [String.length]. lia.
Qed.

Lemma str_int_nonneg_digits (n : Z) :
  (0 ≤ n)%Z → string_forall is_digit (str_int n) = true.
Proof.
  intros Hn. destruct n as [|p|p]; [reflexivity | | lia].
  unfold str_int, pretty, pretty_Z, pretty, pretty_positive, pretty, pretty_N.
  case_decide; [reflexivity |]. now apply pretty_N_go_digits.
Qed.

Lemma str_int_numeral (n : Z) : string_forall is_numeral_char (str_int n) = true.
Proof.
  assert (Hd : ∀ c, is_digit c = true → is_numeral_char c = true).
  { intros c Hc. unfold is_numeral_char. now rewrite Hc. }
  destruct n as [|p|p]; [reflexivity | |].
  - apply (string_forall_impl is_digit); [exact Hd |].
    now apply (str_int_nonneg_digits (Z.pos p)).
  - change (str_int (Z.neg p)) with ("-" +:+ str_int (Z.pos p)).
    rewrite string_forall_app. apply andb_true_iff. split; [reflexivity |].
    apply (string_forall_impl is_digit); [exact Hd |].
    now apply (str_int_nonneg_digits (Z.pos p)).
Qed.

Lemma str_int_nonempty (n : Z) : str_int n ≠ "".
Proof.
  assert (Hpos : ∀ p, str_int (Z.pos p) ≠ "").
  { intros p. unfold str_int, pretty, pretty_Z, pretty, pretty_positive, pretty, pretty_N.
    case_decide; [discriminate |].
    rewrite pretty_N_go_step by lia. intros E.
    pose proof (pretty_N_go_length (N.pos p `div` 10)
                  (String (pretty_N_char (N.pos p `mod` 10)) "")) as Hl.
    rewrite E in Hl. cbn [String.length] in Hl. lia. }
  destruct n as [|p|p]; [discriminate | apply Hpos |].
  change (str_int (Z.neg p)) with ("-" +:+ str_int (Z.pos p)). discriminate.
Qed.

Lemma str_int_inj (m n : Z) : str_int m = str_int n → m = n.
Proof. apply pretty_Z_inj. Qed.

(** ** Canonical names *)

Lemma append_inj_l (a b c : string) : a +:+ b = a +:+ c → b = c.
Proof.
  induction a as [|x a IH]; [trivial |].
  rewrite !append_cons. intros E. injection E as E. now apply IH.
Qed.

(** A numeral is read off the front of a string without ambiguity. *)
Lemma numeral_split (a a' t t' : string) :
  string_forall is_numeral_char a = true →
  string_forall is_numeral_char a' = true →
  stops_numeral t = true → stops_numeral t' = true →
  a +:+ t = a' +:+ t' → a = a' ∧ t = t'.
Proof.
  revert a'. induction a as [|x a IH]; intros [|x' a'] Ha Ha' Ht Ht' E.
  - split; [reflexivity | exact E].
  - exfalso. change ("" +:+ t) with t in E. rewrite append_cons in E. subst t.
    cbn [string_forall] in Ha'. cbn [stops_numeral] in Ht.
    apply andb_true_iff in Ha' as [Hx _]. rewrite Hx in Ht. discriminate Ht.
  - exfalso. change ("" +:+ t') with t' in E. rewrite append_cons in E. subst t'.
    cbn [string_forall] in Ha. cbn [stops_numeral] in Ht'.
    apply andb_true_iff in Ha as [Hx _]. rewrite Hx in Ht'. discriminate Ht'.
  - rewrite !append_cons in E. injection E as -> E.
    cbn [string_forall] in Ha, Ha'.
    apply andb_true_iff in Ha as [_ Ha]. apply andb_true_iff in Ha' as [_ Ha'].
    destruct (IH a' Ha Ha' Ht Ht' E) as [-> ->]. split; reflexivity.
Qed.

Lemma str_join_cons_tail (sep x : string) (l : list string) (sfx : string) :
  str_join sep (x :: l) +:+ sfx =
  x +:+ (match l with [] => sfx | _ :: _ => sep +:+ str_join sep l +:+ sfx end).
Proof.
  destruct l as [|y l]; [reflexivity |].
  change (str_join sep (x :: y :: l)) with (x +:+ sep +:+ str_join sep (y :: l)).
  now rewrite !append_assoc.
Qed.

(** The dimension part of a name, with its optional suffix, determines the
    dimensions and the suffix. *)
Lemma dims_suffix_inj (l l' : list Z) (c c' : bool) :
  str_join "x" (map str_int l) +:+ (if c then "_F" else "") =
  str_join "x" (map str_int l') +:+ (if c' then "_F" else "") →
  l = l' ∧ c = c'.
Proof.
  assert (Hsfx : ∀ b : bool, stops_numeral (if b then "_F" else "") = true)
    by (intros []; reflexivity).
  assert (Htail : ∀ (r : list Z) (b : bool),
            stops_numeral (match map str_int r with
                           | [] => if b then "_F" else ""
                           | _ :: _ => "x" +:+ str_join "x" (map str_int r)
                                           +:+ (if b then "_F" else "")
                           end) = true)
    by (intros [|? ?] []; reflexivity).
  revert l'. induction l as [|z r IH]; intros [|z' r'] E.
  - split; [reflexivity |]. destruct c, c'; (reflexivity || discriminate E).
  - exfalso. cbn [map] in E. rewrite str_join_cons_tail in E.
    change (str_join "x" (map str_int []) +:+ (if c then "_F" else ""))
      with ("" +:+ (if c then "_F" else "")) in E.
    apply numeral_split in E as [E _];
      [ now apply (str_int_nonempty z') | reflexivity | apply str_int_numeral
      | apply Hsfx | apply Htail ].
  - exfalso. cbn [map] in E. rewrite str_join_cons_tail in E.
    change (str_join "x" (map str_int []) +:+ (if c' then "_F" else ""))
      with ("" +:+ (if c' then "_F" else "")) in E.
    apply numeral_split in E as [E _];
      [ now apply (str_int_nonempty z) | apply str_int_numeral | reflexivity
      | apply Htail | apply Hsfx ].
  - cbn [map] in E. rewrite !str_join_cons_tail in E.
    apply numeral_split in E as [Ez Et];
      [ | apply str_int_numeral | apply str_int_numeral | apply Htail | apply Htail ].
    apply str_int_inj in Ez as ->.
    destruct r as [|y r], r' as [|y' r']; cbn [map] in Et.
    + split; [reflexivity |]. destruct c, c'; (reflexivity || discriminate Et).
    + exfalso. destruct c; discriminate Et.
    + exfalso. destruct c'; discriminate Et.
    + apply (append_inj_l "x") in Et.
      destruct (IH (y' :: r') Et) as [Hr ->]. split; [now rewrite Hr | reflexivity].
Qed.

Lemma canonicalName_spec_inj `{!Snowwhite} (f f' : bool) (d d' : list Z)
    (r r' c c' : bool) :
  canonicalName_spec f d r c = canonicalName_spec f' d' r' c' →
  f = f' ∧ d = d' ∧ r = r' ∧ c = c'.
Proof.
  unfold canonicalName_spec. intros E.
  remember (str_join "x" (map str_int d) +:+ (if c then "_F" else "")) as J eqn:HJ.
  remember (str_join "x" (map str_int d') +:+ (if c' then "_F" else "")) as J' eqn:HJ'.
  destruct r, r', f, f'; vm_compute in E; try discriminate E;
    injection E as E; subst J J'; apply dims_suffix_inj in E as [-> ->];
    repeat split.
Qed.

Lemma string_forall_join (test : ascii → bool) (sep : string) (l : list string) :
  string_forall test sep = true →
  string_forall test (str_join sep l) = forallb (string_forall test) l.
Proof.
  intros Hsep. induction l as [|x l IH]; [reflexivity |].
  destruct l as [|y l].
  - cbn [str_join forallb]. now rewrite andb_true_r.
  - change (str_join sep (x :: y :: l)) with (x +:+ sep +:+ str_join sep (y :: l)).
    rewrite !string_forall_app, Hsep, IH. reflexivity.
Qed.

Lemma str_int_ident (n : Z) : string_forall is_ident_char (str_int n) = Z.leb 0 n.
Proof.
  destruct (Z.leb_spec 0 n) as [Hn | Hn].
  - apply (string_forall_impl is_digit); [| now apply str_int_nonneg_digits].
    intros c Hc. unfold is_ident_char. rewrite Hc. now rewrite orb_true_r.
  - destruct n as [|p|p]; [lia | lia |].
    change (str_int (Z.neg p)) with ("-" +:+ str_int (Z.pos p)).
    now rewrite string_forall_app.
Qed.

Lemma dims_ident (l : list Z) :
  string_forall is_ident_char (str_join "x" (map str_int l)) = forallb (Z.leb 0) l.
Proof.
  rewrite string_forall_join by reflexivity.
  induction l as [|z l IH]; [reflexivity |].
  cbn [map forallb]. now rewrite str_int_ident, IH.
Qed.

(** X1: the canonical name determines the configuration: two constructions
    that give the same name have the same dimension values, the same
    direction branch, the same precision and the same layout. *)
Theorem canonical_name_injective `{!Snowwhite}
    (p p' : MddftProblem) (opts opts' : gmap string pyval) :
  MddftSolver_namebase p opts = MddftSolver_namebase p' opts' →
  items (dimensions p) = items (dimensions p') ∧
  Z.eqb (direction p) SW_FORWARD = Z.eqb (direction p') SW_FORWARD ∧
  realCtype_is_float opts = realCtype_is_float opts' ∧
  columnMajor_set opts = columnMajor_set opts'.
Proof.
  rewrite !namebase_spec. intros E.
  apply canonicalName_spec_inj in E as (Hf & Hd & Hr & Hc). auto.
Qed.

Lemma canonical_name_injective_witness :
  items (PyList [8; 16]) = items (PyTuple [8; 16]) ∧
  realCtype_is_float (H := sw_sample) {[ "colmajor" := PyInt 1 ]} =
  realCtype_is_float (H := sw_sample) {[ "colmajor" := PyBool true ]}.
Proof.
  destruct (@canonical_name_injective sw_sample
              {| _ns := PyList [8; 16]; _k := 1 |} {| _ns := PyTuple [8; 16]; _k := 1 |}
              {[ "colmajor" := PyInt 1 ]} {[ "colmajor" := PyBool true ]})
    as (Hd & _ & Hr & _); [vm_compute; reflexivity |].
  split; [exact Hd | exact Hr].
Defined.

(** X2: the canonical name is a C identifier exactly when no dimension is
    negative: a negative dimension puts a minus sign into the name that the
    script and the host wrapper use as a function name. *)
Theorem canonical_name_identifier_iff `{!Snowwhite}
    (p : MddftProblem) (opts : gmap string pyval) :
  is_c_identifier (MddftSolver_namebase p opts) =
  forallb (Z.leb 0) (items (dimensions p)).
Proof.
  rewrite namebase_spec. unfold canonicalName_spec.
  pose proof (dims_ident (items (dimensions p))) as HJ.
  destruct (realCtype_is_float opts), (Z.eqb (direction p) SW_FORWARD),
    (columnMajor_set opts);
    rewrite append_cons; unfold is_c_identifier;
    rewrite <- append_cons, !string_forall_app, HJ;
    destruct (forallb (Z.leb 0) (items (dimensions p))); reflexivity.
Qed.

(** ** More on the two numeric paths *)

Section MorePathFacts.
Context `{!Snowwhite, !ArrayLib, !Runtime}.

(** What [runDef] computes. *)
Lemma runDef_run (self : SWSolver) (src : loc) (w : world) (a : ndarray) :
  heap w !! src = Some a →
  runDef self src w =
  inr (fresh (dom (heap w)),
       {| heap := <[fresh (dom (heap w)) :=
                     (if Z.eqb (direction (_problem self)) SW_FORWARD
                      then fft_fftn else fft_ifftn) (get_array_module a) a]> (heap w);
          calls := calls w ++ [if Z.eqb (direction (_problem self)) SW_FORWARD
                               then XpFftn else XpIfftn] |}).
Proof.
  intros Hsrc. unfold runDef. rewrite (bind_inr _ _ w w a) by now apply deref_ok.
  destruct (Z.eqb (direction (_problem self)) SW_FORWARD).
  - unfold xp_fft_fftn. cbv [mbind M_bind mret M_ret deref log alloc].
    cbn [heap calls]. rewrite Hsrc. reflexivity.
  - unfold xp_fft_ifftn. cbv [mbind M_bind mret M_ret deref log alloc].
    cbn [heap calls]. rewrite Hsrc. reflexivity.
Qed.

(** What [solve] does when the artifact raises. *)
Lemma solve_raise (self : SWSolver) (src : loc) (w : world) (a : ndarray) (e : exn) :
  heap w !! src = Some a →
  forallb (Z.leb 0) (items (dimensions (_problem self))) = true →
  _func self (fresh (dom (heap w))) src
    (<[fresh (dom (heap w)) :=
         zeros_array (get_array_module a) (items (dimensions (_problem self)))
           (dtype a) (if py_truthy (_colMajor self) then order_F else order_C)]>
       (heap w)) = inl e →
  solve self src w = inl e.
Proof.
  intros Hsrc Hnn Hk.
  unfold solve. rewrite (bind_inr _ _ w w a) by now apply deref_ok.
  unfold xp_zeros. rewrite Hnn.
  unfold mbind at 1, M_bind at 1.
  unfold mbind at 1, M_bind at 1. unfold log at 1, alloc at 1.
  cbn [heap calls].
  unfold mbind at 1, M_bind at 1. unfold call_func at 1. cbn [heap calls].
  now rewrite Hk.
Qed.

End MorePathFacts.

(** X3: [solve] has no fallback: when the compiled artifact raises, [solve]
    raises the same exception, whatever the direction; it neither rescales
    nor turns to the reference path. *)
Theorem solve_propagates_artifact_failure `{!Snowwhite, !ArrayLib, !Runtime}
    (self : SWSolver) (src : loc) (w : world) (a : ndarray) (e : exn) :
  heap w !! src = Some a →
  forallb (Z.leb 0) (items (dimensions (_problem self))) = true →
  _func self (fresh (dom (heap w))) src
    (<[fresh (dom (heap w)) :=
         zeros_array (get_array_module a) (items (dimensions (_problem self)))
           (dtype a) (if py_truthy (_colMajor self) then order_F else order_C)]>
       (heap w)) = inl e →
  solve self src w = inl e ∧
  (∀ l w', solve self src w ≠ inr (l, w')).
Proof.
  intros Hsrc Hnn Hk. pose proof (solve_raise self src w a e Hsrc Hnn Hk) as Hs.
  split; [exact Hs |]. intros l w' E. rewrite Hs in E. discriminate E.
Qed.

(** The sample artifact refuses a source whose size is not the destination's:
    here a 2 by 2 source for a problem of 3 elements. *)
Lemma solve_propagates_artifact_failure_witness :
  @solve sw_sample lib_sample runtime_sample
    (@SWSolver_init sw_sample {| _ns := PyList [3]; _k := -1 |} "zmddft_inv_3" ∅)
    0%nat world_sample = inl KernelError.
Proof.
  apply (@solve_propagates_artifact_failure sw_sample lib_sample runtime_sample
           (@SWSolver_init sw_sample {| _ns := PyList [3]; _k := -1 |} "zmddft_inv_3" ∅)
           0%nat world_sample array_sample KernelError); reflexivity.
Defined.

(** X4: a direction that is neither of the two constants is handled as an
    inverse by the name and by [runDef] (their tests are against FORWARD),
    but [solve] does not rescale for it (its test is against INVERSE). *)
Theorem other_direction_is_inverse_but_unscaled `{!Snowwhite, !ArrayLib, !Runtime}
    (p : MddftProblem) (opts : gmap string pyval) (src : loc) (w : world)
    (a : ndarray) (h2 : gmap loc ndarray) :
  direction p ≠ SW_FORWARD →
  direction p ≠ SW_INVERSE →
  func_writes_dst_only →
  heap w !! src = Some a →
  forallb (Z.leb 0) (items (dimensions p)) = true →
  let self := SWSolver_init p (MddftSolver_namebase p opts) opts in
  let dst := fresh (dom (heap w)) in
  _func self dst src
    (<[dst := zeros_array (get_array_module a) (items (dimensions p)) (dtype a)
                (if py_truthy (_colMajor self) then order_F else order_C)]>
       (heap w)) = inr h2 →
  _namebase self = canonicalName_spec false (items (dimensions p))
                     (realCtype_is_float opts) (columnMajor_set opts) ∧
  runDef self src w =
    inr (dst, {| heap := <[dst := fft_ifftn (get_array_module a) a]> (heap w);
                 calls := calls w ++ [XpIfftn] |}) ∧
  solve self src w = inr (dst, {| heap := h2; calls := calls w ++ [XpZeros] |}).
Proof.
  intros Hf Hi Hfunc Hsrc Hnn self dst Hk.
  assert (Ef : Z.eqb (direction p) SW_FORWARD = false) by now apply Z.eqb_neq.
  assert (Ei : Z.eqb (direction p) SW_INVERSE = false) by now apply Z.eqb_neq.
  split; [| split].
  - cbn [self SWSolver_init _namebase]. now rewrite namebase_spec, Ef.
  - rewrite (runDef_run self src w a Hsrc).
    cbn [self SWSolver_init _problem]. now rewrite Ef.
  - destruct (solve_run self src w a h2 Hfunc Hsrc Hnn Hk) as (elems & _ & _ & Hrun).
    rewrite Hrun. cbn [self SWSolver_init _problem]. now rewrite Ei.
Qed.

Lemma other_direction_is_inverse_but_unscaled_witness :
  ∃ l w',
    @solve sw_sample lib_sample runtime_sample
      (@SWSolver_init sw_sample {| _ns := PyList [2; 2]; _k := 0 |}
         (@MddftSolver_namebase sw_sample {| _ns := PyList [2; 2]; _k := 0 |} ∅) ∅)
      0%nat world_sample = inr (l, w') ∧
    calls w' = [XpZeros] ∧
    @MddftSolver_namebase sw_sample {| _ns := PyList [2; 2]; _k := 0 |} ∅
      = "zmddft_inv_2x2".
Proof.
  edestruct (@other_direction_is_inverse_but_unscaled sw_sample lib_sample
               runtime_sample {| _ns := PyList [2; 2]; _k := 0 |} ∅
               0%nat world_sample array_sample)
    as (Hname & _ & Hsolve).
  - simpl. lia.
  - simpl. lia.
  - exact runtime_sample_writes_dst_only.
  - reflexivity.
  - reflexivity.
  - reflexivity.
  - eexists. eexists. split; [exact Hsolve |]. split; [reflexivity |].
    vm_compute. reflexivity.
Defined.

(** ** More on the generator script and the host wrapper *)

Section MoreScriptFacts.
Context `{!Snowwhite}.

Lemma writeScript_conf (self : SWSolver) :
  _writeScript self [] !! 2%nat =
  Some (if py_truthy (_genCuda self)
        then "conf := LocalConfig.fftx.confGPU();"
        else "conf := LocalConfig.fftx.defaultConf();").
Proof.
  unfold _writeScript, print.
  destruct (py_truthy (_genCuda self)), (py_truthy (_colMajor self)),
    (py_eq_str (dict_get (_opts self) SW_OPT_REALCTYPE PyNone) "float");
    reflexivity.
Qed.

Lemma writeScript_ns (self : SWSolver) :
  _writeScript self [] !! 3%nat =
  Some ("t := let(ns := " +:+ str_seq (dimensions (_problem self)) +:+ ",").
Proof.
  unfold _writeScript, print.
  destruct (py_truthy (_genCuda self)), (py_truthy (_colMajor self)),
    (py_eq_str (dict_get (_opts self) SW_OPT_REALCTYPE PyNone) "float");
    cbn [app lookup list_lookup]; rewrite append_assoc; reflexivity.
Qed.

Lemma writeScript_name (self : SWSolver) :
  _writeScript self [] !! 4%nat =
  Some ("    name := " +:+ dq
        +:+ (_namebase self +:+ (if py_truthy (_genCuda self) then "_cu" else ""))
        +:+ dq +:+ ",").
Proof.
  unfold _writeScript, print.
  destruct (py_truthy (_genCuda self)), (py_truthy (_colMajor self)),
    (py_eq_str (dict_get (_opts self) SW_OPT_REALCTYPE PyNone) "float");
    cbn [app lookup list_lookup]; rewrite ?append_nil_r, !append_assoc; reflexivity.
Qed.

Lemma writeScript_target (self : SWSolver) :
  List.filter (starts_with "PrintTo(") (_writeScript self []) =
  [ "PrintTo(" +:+ dq +:+ _namebase self
    +:+ (if py_truthy (_genCuda self) then ".cu" else ".c")
    +:+ dq +:+ ", opts.prettyPrint(c));" ].
Proof.
  unfold _writeScript, print.
  destruct (py_truthy (_genCuda self)), (py_truthy (_colMajor self)),
    (py_eq_str (dict_get (_opts self) SW_OPT_REALCTYPE PyNone) "float");
    cbn [app]; rewrite !append_assoc; reflexivity.
Qed.

Lemma writeScript_length (self : SWSolver) :
  length (_writeScript self []) =
  if realCtype_is_float (_opts self) then 14%nat else 13%nat.
Proof.
  rewrite <- (py_eq_str_float (_opts self) PyNone) by discriminate.
  unfold _writeScript, print.
  destruct (py_truthy (_genCuda self)), (py_truthy (_colMajor self)),
    (py_eq_str (dict_get (_opts self) SW_OPT_REALCTYPE PyNone) "float");
    reflexivity.
Qed.

Lemma writeCudaHost_lines (self : SWSolver) :
  fst (_writeCudaHost self) = _namebase self +:+ "_host.cu" ∧
  (∃ sig, snd (_writeCudaHost self) !! 6%nat =
          Some ("extern void " +:+ (_namebase self +:+ "_cu") +:+ "(" +:+ sig)) ∧
  (∃ sig, snd (_writeCudaHost self) !! 12%nat =
          Some ("void " +:+ _namebase self +:+ "(" +:+ sig)) ∧
  snd (_writeCudaHost self) !! 13%nat =
    Some ("    " +:+ (_namebase self +:+ "_cu") +:+ "(Y, X);").
Proof.
  unfold _writeCudaHost, print. cbn [fst snd app lookup list_lookup].
  split; [reflexivity |].
  split; [eexists; rewrite !append_assoc; reflexivity |].
  split; [eexists; rewrite !append_assoc; reflexivity |].
  rewrite !append_assoc. reflexivity.
Qed.

End MoreScriptFacts.

Lemma length_append (a b : string) :
  String.length (a +:+ b) = (String.length a + String.length b)%nat.
Proof.
  induction a as [|x a IH]; [reflexivity |].
  rewrite append_cons. cbn [String.length]. now rewrite IH.
Qed.

Lemma append_inj_r (a b c : string) : a +:+ c = b +:+ c → a = b.
Proof.
  revert b. induction a as [|x a IH]; intros [|y b] E.
  - reflexivity.
  - exfalso. apply (f_equal String.length) in E.
    rewrite !length_append in E. cbn [String.length] in E. lia.
  - exfalso. apply (f_equal String.length) in E.
    rewrite !length_append in E. cbn [String.length] in E. lia.
  - rewrite !append_cons in E. injection E as -> E. now rewrite (IH b E).
Qed.

(** X5: the entry point that is loaded is called by the base name on both
    backends. For the CPU the script configures the default backend, asks
    for a function of the base name and has it written to [<name>.c]; for the
    GPU it configures the GPU backend, asks for [<name>_cu] and has it
    written to [<name>.cu], and the host wrapper, a different file, declares
    and calls [<name>_cu] from the entry point [<name>] it defines. *)
Theorem generated_symbol_matches_wrapper `{!Snowwhite} (self : SWSolver) :
  let name := _namebase self in
  let gpu := py_truthy (_genCuda self) in
  let script := _writeScript self [] in
  let host := snd (_writeCudaHost self) in
  script !! 2%nat =
    Some (if gpu then "conf := LocalConfig.fftx.confGPU();"
          else "conf := LocalConfig.fftx.defaultConf();") ∧
  script !! 4%nat =
    Some ("    name := " +:+ dq +:+ (name +:+ (if gpu then "_cu" else ""))
          +:+ dq +:+ ",") ∧
  List.filter (starts_with "PrintTo(") script =
    [ "PrintTo(" +:+ dq +:+ name +:+ (if gpu then ".cu" else ".c")
      +:+ dq +:+ ", opts.prettyPrint(c));" ] ∧
  (∃ sig, host !! 6%nat = Some ("extern void " +:+ (name +:+ "_cu") +:+ "(" +:+ sig)) ∧
  (∃ sig, host !! 12%nat = Some ("void " +:+ name +:+ "(" +:+ sig)) ∧
  host !! 13%nat = Some ("    " +:+ (name +:+ "_cu") +:+ "(Y, X);") ∧
  fst (_writeCudaHost self) ≠ name +:+ ".cu" ∧
  fst (_writeCudaHost self) ≠ name +:+ ".c".
Proof.
  intros name gpu script host. subst name gpu script host.
  destruct (writeCudaHost_lines self) as (Hf & Hext & Hdef & Hcall).
  split; [apply writeScript_conf |].
  split; [apply writeScript_name |].
  split; [apply writeScript_target |].
  split; [exact Hext |]. split; [exact Hdef |]. split; [exact Hcall |].
  rewrite Hf. split; intros E; apply append_inj_l in E; discriminate E.
Qed.

(** ** Dimension literals *)

(** The items of a printed sequence, with what closes it, determine the
    items and the closer. *)
Lemma seq_body_inj (l l' : list Z) (t t' : string) :
  stops_numeral t = true → stops_numeral t' = true →
  (∀ r, t ≠ ", " +:+ r) → (∀ r, t' ≠ ", " +:+ r) →
  str_join ", " (map str_int l) +:+ t = str_join ", " (map str_int l') +:+ t' →
  l = l' ∧ t = t'.
Proof.
  intros Ht Ht' Hn Hn'.
  assert (Htail : ∀ (r : list Z) (u : string), stops_numeral u = true →
            stops_numeral (match map str_int r with
                           | [] => u
                           | _ :: _ => ", " +:+ str_join ", " (map str_int r) +:+ u
                           end) = true)
    by (intros [|? ?] u Hu; [exact Hu | reflexivity]).
  revert l'. induction l as [|z r IH]; intros [|z' r'] E.
  - split; [reflexivity | exact E].
  - exfalso. cbn [map] in E. rewrite str_join_cons_tail in E.
    change (str_join ", " (map str_int []) +:+ t) with ("" +:+ t) in E.
    apply numeral_split in E as [E _];
      [ now apply (str_int_nonempty z') | reflexivity | apply str_int_numeral
      | exact Ht | now apply Htail ].
  - exfalso. cbn [map] in E. rewrite str_join_cons_tail in E.
    change (str_join ", " (map str_int []) +:+ t') with ("" +:+ t') in E.
    apply numeral_split in E as [E _];
      [ now apply (str_int_nonempty z) | apply str_int_numeral | reflexivity
      | now apply Htail | exact Ht' ].
  - cbn [map] in E. rewrite !str_join_cons_tail in E.
    apply numeral_split in E as [Ez Et];
      [ | apply str_int_numeral | apply str_int_numeral
        | now apply Htail | now apply Htail ].
    apply str_int_inj in Ez as ->.
    destruct r as [|y r], r' as [|y' r']; cbn [map] in Et.
    + split; [reflexivity | exact Et].
    + exfalso. now apply (Hn _ Et).
    + exfalso. symmetry in Et. now apply (Hn' _ Et).
    + apply (append_inj_l ", ") in Et.
      destruct (IH (y' :: r') Et) as [Hr ->]. split; [now rewrite Hr | reflexivity].
Qed.

(** How a tuple is printed: one item is followed by a comma. *)
Lemma str_seq_tuple (l : list Z) :
  str_seq (PyTuple l) =
  "(" +:+ str_join ", " (map str_int l)
      +:+ (match l with [_] => ",)" | _ => ")" end).
Proof. destruct l as [|x [|y l]]; reflexivity. Qed.

(** A printed sequence is read back without ambiguity. *)
Lemma str_seq_inj (s s' : pyseq) : str_seq s = str_seq s' → s = s'.
Proof.
  assert (Hc : ∀ l : list Z,
            stops_numeral (match l with [_] => ",)" | _ => ")" end) = true
            ∧ ∀ r, (match l with [_] => ",)" | _ => ")" end) ≠ ", " +:+ r).
  { intros [|x [|y l]]; (split; [reflexivity | intros r E; discriminate E]). }
  destruct s as [l|l], s' as [l'|l']; intros E.
  - unfold str_seq in E. apply append_inj_l in E.
    apply seq_body_inj in E as [-> _];
      [reflexivity | reflexivity | reflexivity
      | intros r H; discriminate H | intros r H; discriminate H].
  - exfalso. rewrite str_seq_tuple in E. unfold str_seq in E.
    rewrite !append_cons in E. discriminate E.
  - exfalso. rewrite str_seq_tuple in E. unfold str_seq in E.
    rewrite !append_cons in E. discriminate E.
  - rewrite !str_seq_tuple in E. apply append_inj_l in E.
    apply seq_body_inj in E as [-> _];
      [reflexivity | apply Hc | apply Hc | apply Hc | apply Hc].
Qed.

(** The transform term determines the layout and the direction literal. *)
Lemma transform_term_inj (c c' : bool) (m n : Z) :
  transform_term c (str_int m) = transform_term c' (str_int n) →
  c = c' ∧ m = n.
Proof.
  unfold transform_term. intros E.
  destruct c, c'.
  - apply append_inj_l in E.
    apply numeral_split in E as [E _];
      [ | apply str_int_numeral | apply str_int_numeral | reflexivity | reflexivity ].
    apply str_int_inj in E. now split.
  - exfalso. remember (str_int m) as a. remember (str_int n) as b.
    clear Heqa Heqb. vm_compute in E. discriminate E.
  - exfalso. remember (str_int m) as a. remember (str_int n) as b.
    clear Heqa Heqb. vm_compute in E. discriminate E.
  - apply append_inj_l in E.
    apply numeral_split in E as [E _];
      [ | apply str_int_numeral | apply str_int_numeral | reflexivity | reflexivity ].
    apply str_int_inj in E. now split.
Qed.

(** X6: whether the dimensions are given as a list or as a tuple does not
    show in the canonical name, in the output file the script names, or in
    the host wrapper, but it shows in the script: the dimension literal is
    bracketed for a list and parenthesised for a tuple. Two different
    scripts so write to the same output file. *)
Theorem sequence_kind_shows_in_script_only `{!Snowwhite}
    (l : list Z) (k : Z) (opts : gmap string pyval) :
  let pl := mkMddftProblem (PyList l) k in
  let pt := mkMddftProblem (PyTuple l) k in
  let sl := SWSolver_init pl (MddftSolver_namebase pl opts) opts in
  let st := SWSolver_init pt (MddftSolver_namebase pt opts) opts in
  _namebase sl = _namebase st ∧
  _writeCudaHost sl = _writeCudaHost st ∧
  List.filter (starts_with "PrintTo(") (_writeScript sl []) =
    List.filter (starts_with "PrintTo(") (_writeScript st []) ∧
  (∃ r, _writeScript sl [] !! 3%nat = Some ("t := let(ns := [" +:+ r)) ∧
  (∃ r, _writeScript st [] !! 3%nat = Some ("t := let(ns := (" +:+ r)) ∧
  _writeScript sl [] ≠ _writeScript st [].
Proof.
  intros pl pt sl st.
  assert (Hname : _namebase sl = _namebase st) by reflexivity.
  split; [exact Hname |].
  split; [reflexivity |].
  split; [rewrite !writeScript_target; reflexivity |].
  split; [| split].
  - rewrite writeScript_ns.
    exists ((str_join ", " (map str_int l) +:+ "]") +:+ ","). reflexivity.
  - rewrite writeScript_ns.
    cbn [st SWSolver_init _problem pt dimensions _ns]. rewrite str_seq_tuple.
    exists ((str_join ", " (map str_int l)
             +:+ (match l with [_] => ",)" | _ => ")" end)) +:+ ",").
    reflexivity.
  - intros E. apply (f_equal (λ f, f !! 3%nat)) in E.
    rewrite !writeScript_ns in E. injection E as E.
    apply append_inj_l in E. apply append_inj_r in E.
    change (str_seq (PyList l) = str_seq (PyTuple l)) in E.
    apply str_seq_inj in E. discriminate E.
Qed.

(** X7: the script is a faithful record of what it was written from: two
    solvers that write the same script have the same dimension sequence (of
    the same kind), the same direction, the same base name, the same layout,
    the same backend and the same precision. *)
Theorem script_determines_configuration `{!Snowwhite} (self self' : SWSolver) :
  _writeScript self [] = _writeScript self' [] →
  dimensions (_problem self) = dimensions (_problem self') ∧
  direction (_problem self) = direction (_problem self') ∧
  _namebase self = _namebase self' ∧
  py_truthy (_colMajor self) = py_truthy (_colMajor self') ∧
  py_truthy (_genCuda self) = py_truthy (_genCuda self') ∧
  realCtype_is_float (_opts self) = realCtype_is_float (_opts self').
Proof.
  intros E.
  pose proof (f_equal (λ f, f !! 2%nat) E) as E2.
  pose proof (f_equal (λ f, f !! 3%nat) E) as E3.
  pose proof (f_equal (λ f, f !! 4%nat) E) as E4.
  pose proof (f_equal (λ f, f !! 5%nat) E) as E5.
  pose proof (f_equal length E) as El.
  cbv beta in E2, E3, E4, E5.
  rewrite !writeScript_conf in E2. rewrite !writeScript_ns in E3.
  rewrite !writeScript_name in E4. rewrite !writeScript_term in E5.
  rewrite !writeScript_length in El.
  assert (Hgpu : py_truthy (_genCuda self) = py_truthy (_genCuda self')).
  { destruct (py_truthy (_genCuda self)), (py_truthy (_genCuda self'));
      (reflexivity || discriminate E2). }
  injection E3 as E3. apply append_inj_l, append_inj_r, str_seq_inj in E3.
  injection E5 as E5. apply transform_term_inj in E5 as [Hc Hd].
  injection E4 as E4. rewrite Hgpu in E4.
  apply append_inj_l in E4. apply append_inj_r, append_inj_r in E4.
  split; [exact E3 |]. split; [lia |]. split; [exact E4 |].
  split; [exact Hc |]. split; [exact Hgpu |].
  destruct (realCtype_is_float (_opts self)), (realCtype_is_float (_opts self'));
    (reflexivity || discriminate El).
Qed.

Lemma script_determines_configuration_witness :
  direction {| _ns := PyList [8; 8]; _k := 1 |} = 1%Z ∧
  py_truthy (PyInt 1) = py_truthy (PyStr "yes").
Proof.
  destruct (@script_determines_configuration sw_sample
              (mkSWSolver {| _ns := PyList [8; 8]; _k := 1 |} "zmddft_fwd_8x8"
                 ∅ (PyInt 1) (PyBool false))
              (mkSWSolver {| _ns := PyList [8; 8]; _k := 1 |} "zmddft_fwd_8x8"
                 {[ "other" := PyInt 3 ]} (PyStr "yes") PyNone))
    as (_ & Hd & _ & Hc & _); [vm_compute; reflexivity |].
  split; [exact Hd | exact Hc].
Defined.

(** X8: the three places that read the real-type option agree, although each
    reads it with its own default: for a solver built by the constructor the
    name starts with [c] (else with [z]), the script sets the generator's
    real type, and the host wrapper's signatures use [float] (else
    [double]), all exactly when the option is the string ["float"]. *)
Theorem precision_agrees_everywhere `{!Snowwhite}
    (p : MddftProblem) (opts : gmap string pyval) :
  let self := SWSolver_init p (MddftSolver_namebase p opts) opts in
  let float := realCtype_is_float opts in
  let typ := if float then "float" else "double" in
  starts_with "c" (_namebase self) = float ∧
  starts_with "z" (_namebase self) = negb float ∧
  existsb (starts_with "opts.TRealCtype := ") (_writeScript self []) = float ∧
  snd (_writeCudaHost self) !! 6%nat =
    Some ("extern void " +:+ _namebase self +:+ "_cu(" +:+ typ +:+ "  *Y, "
          +:+ typ +:+ "  *X);") ∧
  snd (_writeCudaHost self) !! 12%nat =
    Some ("void " +:+ _namebase self +:+ "(" +:+ typ +:+ "  *Y, "
          +:+ typ +:+ "  *X) {").
Proof.
  intros self float typ. subst float typ.
  assert (Hc : starts_with "c" (_namebase self) = realCtype_is_float opts
               ∧ starts_with "z" (_namebase self) = negb (realCtype_is_float opts)).
  { cbn [self SWSolver_init _namebase]. rewrite namebase_spec.
    unfold canonicalName_spec. destruct (realCtype_is_float opts); split; reflexivity. }
  destruct Hc as [Hc Hz]. split; [exact Hc |]. split; [exact Hz |].
  split.
  - rewrite <- (py_eq_str_float opts PyNone) by discriminate.
    unfold _writeScript, print.
    cbn [self SWSolver_init _opts _genCuda _colMajor _problem _namebase].
    generalize (MddftSolver_namebase p opts). intros name.
    destruct (py_truthy (SWSolver_genCuda opts)),
      (py_truthy (dict_get opts SW_OPT_COLMAJOR (PyBool false))),
      (py_eq_str (dict_get opts SW_OPT_REALCTYPE PyNone) "float");
      cbn [app existsb]; reflexivity.
  - rewrite <- (py_eq_str_float opts (PyInt 0)) by discriminate.
    unfold _writeCudaHost, print.
    cbn [self SWSolver_init _opts _namebase snd app lookup list_lookup].
    generalize (MddftSolver_namebase p opts). intros name.
    destruct (py_eq_str (dict_get opts SW_OPT_REALCTYPE (PyInt 0)) "float");
      rewrite !append_assoc; split; reflexivity.
Qed.
